(** * Copy-to-clipboard handler of the complaints portal

    A shallow embedding of [static/js/copy.js]: the two helper functions
    [showCopiedToast] and [copyText], and the click listener attached to
    every [.js-copy-btn] element.

    The script talks to the browser only: the DOM, the clipboard, the
    Bootstrap toast widget and the console.  The browser is modelled by

    - a [Document] (the element heap and the tree of elements under
      [document.body]), threaded through the code as state;
    - a [Host] record giving what the environment answers where the script
      cannot know: the page address, whether [navigator.clipboard.writeText]
      exists and how its promise settles, what [document.execCommand]
      returns or throws, whether [bootstrap] is defined and how it answers;
    - a list of [Event]s, one per call the script makes to the browser.

    One activation of the listener is run to completion.  [await p] is the
    sequencing of the settlement of [p]: a fulfilled promise continues, a
    rejected one throws at the [await]; the promise of [writeText] is taken
    to settle.  Reading [dataset], [window.location.href] and
    [navigator.clipboard] never throws; [document.body] exists, the buttons
    being inside it.

    The callback of [DOMContentLoaded], which attaches the listener to the
    buttons, works on a [Page]: the document with the class tokens of its
    elements and the table of listeners. *)

From stdpp Require Import base strings list gmap.

Local Open Scope string_scope.
Local Open Scope list_scope.

(** ** JavaScript values and completions *)

(** What a [dataset] read can yield: [undefined] when the attribute is
    missing, its string value otherwise. *)
Inductive JsVal :=
| JsUndefined
| JsString (s : string).

(** ToBoolean: [undefined] and the empty string are falsy. *)
Definition truthy (v : JsVal) : bool :=
  match v with
  | JsUndefined => false
  | JsString s => negb (String.eqb s "")
  end.

(** [v || d] for a string default [d]. *)
Definition or_default (v : JsVal) (d : string) : string :=
  match v with
  | JsUndefined => d
  | JsString s => if truthy v then s else d
  end.

Record JsError := { err_name : string; err_message : string }.

(** How a call ends: with a value, or by throwing.  For a promise under
    [await]: fulfilled, or rejected. *)
Inductive Completion (A : Type) :=
| Normal (a : A)
| Throw (e : JsError).
Arguments Normal {A} a.
Arguments Throw {A} e.

(** ** The document *)

Record Element := {
  tagName : string;
  elem_id : string;                 (* the id attribute, empty when absent *)
  dataset : gmap string string;     (* data-copy-text is dataset.copyText, ... *)
  value : string
}.

(** An element of the document with the elements below it, in order. *)
#[warnings="-register-all"]
Inductive Tree :=
| Node (n : nat) (kids : list Tree).

Definition root (t : Tree) : nat :=
  match t with
  | Node n _ => n
  end.

(** The elements of a subtree in tree order: an element, then what is
    below it. *)
Fixpoint flatten (t : Tree) : list nat :=
  match t with
  | Node n kids => n :: List.flat_map flatten kids
  end.

Record Document := {
  nodes : gmap nat Element;         (* every element object created so far *)
  body : list Tree                  (* children of document.body, in order,
                                       each with its descendants *)
}.

(** Every element of the document, in tree order.  The [html], [head] and
    [body] elements themselves are not among them: they carry neither the
    class nor the id the script looks for. *)
Definition elements (d : Document) : list nat :=
  List.flat_map flatten (body d).

(** Every element of the document is an element of the heap. *)
Definition doc_wf (d : Document) : Prop :=
  ∀ n : nat, n ∈ elements d → n ∈ dom (nodes d).

Definition dataset_get (el : Element) (name : string) : JsVal :=
  match dataset el !! name with
  | Some s => JsString s
  | None => JsUndefined
  end.

(** ** The host environment *)

Record Clipboard := {
  writeText : option (string → Completion unit)
}.

Record ToastOptions := { delay : nat }.

(** The [bootstrap] global, when it is defined, is Bootstrap with its
    [Toast] class; how the two calls of the script end is the host's. *)
Record Toolkit := {
  getOrCreateInstance : nat → ToastOptions → Completion nat;
  show : nat → Completion unit
}.

Record Host := {
  location_href : string;
  navigator_clipboard : option Clipboard;
  execCommand : string → Completion bool;
  bootstrap : option Toolkit
}.

(** ** Calls made to the browser *)

Inductive Event :=
| WriteText (v : string)
| CreateElement (tag : string) (n : nat)
| SetValue (n : nat) (v : string)
| AppendChild (n : nat)
| Select (n : nat)
| ExecCommand (cmd : string)
| RemoveChild (n : nat)
| ToastGetOrCreateInstance (el : nat) (opts : ToastOptions)
| ToastShow (inst : nat)
| ConsoleError (prefix : string) (e : JsError).

(** ** The monad: document state, emitted events, exceptions *)

Definition M (A : Type) : Type :=
  Document → Completion A * Document * list Event.

Definition ret {A} (a : A) : M A := λ d, (Normal a, d, []).

Definition bind {A B} (m : M A) (f : A → M B) : M B :=
  λ d,
    match m d with
    | (Normal a, d1, t1) =>
        match f a d1 with
        | (c, d2, t2) => (c, d2, t1 ++ t2)
        end
    | (Throw e, d1, t1) => (Throw e, d1, t1)
    end.

Definition try_catch {A} (m : M A) (handler : JsError → M A) : M A :=
  λ d,
    match m d with
    | (Normal a, d1, t1) => (Normal a, d1, t1)
    | (Throw e, d1, t1) =>
        match handler e d1 with
        | (c, d2, t2) => (c, d2, t1 ++ t2)
        end
    end.

(** A call whose answer comes from the host: it is recorded, and it
    completes as the host says. *)
Definition host_call {A} (ev : Event) (c : Completion A) : M A :=
  λ d, (c, d, [ev]).

Declare Scope js_scope.
Delimit Scope js_scope with js.
Notation "'var' x ':=' m ';;;' k" := (bind m (λ x, k))
  (at level 10, x name, m at level 99, k at level 200) : js_scope.
Notation "m ';;;' k" := (bind m (λ _, k))
  (at level 100, k at level 200, right associativity) : js_scope.
Local Open Scope js_scope.

(** Projections of a run. *)
Definition completion {A} (r : Completion A * Document * list Event) : Completion A := r.1.1.
Definition final {A} (r : Completion A * Document * list Event) : Document := r.1.2.
Definition events {A} (r : Completion A * Document * list Event) : list Event := r.2.

(** ** DOM operations *)

Definition NotFoundError : JsError :=
  {| err_name := "NotFoundError";
     err_message := "The node to be removed is not a child of this node." |}.

Definition new_element (tag : string) : Element :=
  {| tagName := tag; elem_id := ""; dataset := ∅; value := "" |}.

Definition line_feed : Ascii.ascii := Ascii.ascii_of_nat 10.
Definition carriage_return : Ascii.ascii := Ascii.ascii_of_nat 13.

Definition is_line_break (c : Ascii.ascii) : bool :=
  Ascii.eqb c line_feed || Ascii.eqb c carriage_return.

(** The value sanitization of a text input: line feeds and carriage
    returns are dropped. *)
Fixpoint strip_newlines (s : string) : string :=
  match s with
  | EmptyString => EmptyString
  | String c rest =>
      if is_line_break c
      then strip_newlines rest
      else String c (strip_newlines rest)
  end.

Fixpoint no_line_break (s : string) : bool :=
  match s with
  | EmptyString => true
  | String c rest => negb (is_line_break c) && no_line_break rest
  end.

(** What [el.value = v] stores.  An [input] made by [createElement] is a
    text input and sanitizes the value; elsewhere the string is kept. *)
Definition set_value (v : string) (el : Element) : Element :=
  {| tagName := tagName el; elem_id := elem_id el;
     dataset := dataset el;
     value := if String.eqb (tagName el) "input" then strip_newlines v else v |}.

(** [document.createElement(tag)]: a new, detached element. *)
Definition createElement (tag : string) : M nat :=
  λ d,
    let n := fresh (dom (nodes d)) in
    (Normal n,
     {| nodes := <[n := new_element tag]> (nodes d); body := body d |},
     [CreateElement tag n]).

(** [el.value = v] *)
Definition setValue (n : nat) (v : string) : M unit :=
  λ d,
    (Normal tt,
     {| nodes := alter (set_value v) n (nodes d); body := body d |},
     [SetValue n v]).

(** The first answer of [f] along a list. *)
Definition first_some {A B} (f : A → option B) : list A → option B :=
  fix go (l : list A) : option B :=
    match l with
    | [] => None
    | x :: rest =>
        match f x with
        | Some y => Some y
        | None => go rest
        end
    end.

(** The subtree of an element, wherever it is. *)
Fixpoint subtree (n : nat) (t : Tree) : option Tree :=
  match t with
  | Node m kids =>
      if Nat.eqb m n then Some t else first_some (subtree n) kids
  end.

(** A subtree without the element [n] and what is below it. *)
Fixpoint prune (n : nat) (t : Tree) : list Tree :=
  match t with
  | Node m kids =>
      if Nat.eqb m n then [] else [Node m (List.flat_map (prune n) kids)]
  end.

(** Taking an element out of its parent, at any depth. *)
Definition detach (n : nat) (l : list Tree) : list Tree :=
  List.flat_map (prune n) l.

(** Taking a child of the body out of the body. *)
Definition remove_child (n : nat) (l : list Tree) : list Tree :=
  List.filter (λ t, negb (Nat.eqb (root t) n)) l.

(** [document.body.appendChild(el)]: the element becomes the last child of
    the body; an element that is in the document already is moved there
    with what is below it.  An element that is not in the document comes
    without children: the script appends only the input it has just
    created. *)
Definition appendChild (n : nat) : M nat :=
  λ d,
    let moved := default (Node n []) (first_some (subtree n) (body d)) in
    (Normal n,
     {| nodes := nodes d; body := detach n (body d) ++ [moved] |},
     [AppendChild n]).

(** [el.select()] *)
Definition select (n : nat) : M unit :=
  λ d, (Normal tt, d, [Select n]).

(** [document.body.removeChild(el)]: throws when [el] is not a child. *)
Definition removeChild (n : nat) : M nat :=
  λ d,
    if bool_decide (n ∈ List.map root (body d))
    then (Normal n,
          {| nodes := nodes d; body := remove_child n (body d) |},
          [RemoveChild n])
    else (Throw NotFoundError, d, [RemoveChild n]).

Definition has_id (d : Document) (i : string) (n : nat) : bool :=
  match nodes d !! n with
  | Some el => String.eqb (elem_id el) i
  | None => false
  end.

(** [document.getElementById(i)]: the first element of the document, in
    tree order and at any depth, with that id, or null.  A query: it leaves
    no event. *)
Definition element_by_id (d : Document) (i : string) : option nat :=
  List.find (has_id d i) (elements d).

Definition getElementById (i : string) : M (option nat) :=
  λ d, (Normal (element_by_id d i), d, []).

(** [console.error(prefix, e)] *)
Definition console_error (prefix : string) (e : JsError) : M unit :=
  λ d, (Normal tt, d, [ConsoleError prefix e]).

(** ** The script *)

Section Script.

Variable host : Host.

(** [function showCopiedToast()] *)
Definition showCopiedToast : M unit :=
  var toastEl := getElementById "copyToast" ;;;
  match toastEl, bootstrap host with
  | Some toastEl, Some bs =>
      let opts := {| delay := 1500 |} in
      var toast := host_call (ToastGetOrCreateInstance toastEl opts)
                             (getOrCreateInstance bs toastEl opts) ;;;
      host_call (ToastShow toast) (show bs toast)
  | _, _ => ret tt
  end.

(** [navigator.clipboard && navigator.clipboard.writeText] *)
Definition clipboard_writeText : option (string → Completion unit) :=
  match navigator_clipboard host with
  | Some cb => writeText cb
  | None => None
  end.

(** [async function copyText(value)] *)
Definition copyText (value : string) : M unit :=
  match clipboard_writeText with
  | Some write =>
      host_call (WriteText value) (write value)
  | None =>
      var tempInput := createElement "input" ;;;
      setValue tempInput value ;;;
      appendChild tempInput ;;;
      select tempInput ;;;
      host_call (ExecCommand "copy") (execCommand host "copy") ;;;
      removeChild tempInput ;;;
      ret tt
  end.

(** The value of [textToCopy] when the guard [if (!textToCopy)] reads it. *)
Definition textToCopy (button : Element) : string :=
  let textToCopy := or_default (dataset_get button "copyText") "" in
  if truthy (dataset_get button "copyUrl")
  then location_href host
  else textToCopy.

(** The [try] block of the click listener. *)
Definition click_body (button : Element) : M unit :=
  let textToCopy := textToCopy button in
  if String.eqb textToCopy ""
  then ret tt
  else
    copyText textToCopy ;;;
    showCopiedToast.

(** The click listener of one button. *)
Definition click_handler (button : Element) : M unit :=
  try_catch (click_body button)
            (λ error, console_error "Copy failed:" error).

End Script.

(** ** What an activation shows to the outside *)

(** The two ways a string reaches the clipboard. *)
Inductive WritePath := Primary | Fallback.

(** A string handed to the clipboard: the argument of [writeText] on the
    primary path, the value given to the temporary input on the fallback. *)
Definition write_request (ev : Event) : option (WritePath * string) :=
  match ev with
  | WriteText v => Some (Primary, v)
  | SetValue _ v => Some (Fallback, v)
  | _ => None
  end.

Definition write_requests (t : list Event) : list (WritePath * string) :=
  omap write_request t.

(** Calls of the fallback that touch the document. *)
Definition is_dom_call (ev : Event) : bool :=
  match ev with
  | CreateElement _ _ | SetValue _ _ | AppendChild _ | Select _
  | ExecCommand _ | RemoveChild _ => true
  | _ => false
  end.

Definition is_create (ev : Event) : bool :=
  match ev with
  | CreateElement _ _ => true
  | _ => false
  end.

(** Calls to the toast widget. *)
Definition is_acknowledgment (ev : Event) : bool :=
  match ev with
  | ToastGetOrCreateInstance _ _ | ToastShow _ => true
  | _ => false
  end.

(** Lines written to the console. *)
Definition console_entry (ev : Event) : option (string * JsError) :=
  match ev with
  | ConsoleError prefix e => Some (prefix, e)
  | _ => None
  end.

Definition console_entries (t : list Event) : list (string * JsError) :=
  omap console_entry t.

Definition clipboard_available (host : Host) : bool :=
  match clipboard_writeText host with
  | Some _ => true
  | None => false
  end.

Definition write_path (host : Host) : WritePath :=
  if clipboard_available host then Primary else Fallback.

(** The temporary input as [copyText] leaves it in the heap. *)
Definition temp_input (v : string) : Element :=
  set_value v (new_element "input").

(** ** Concrete pages *)

Definition NotAllowedError : JsError :=
  {| err_name := "NotAllowedError";
     err_message := "Write permission denied." |}.

Definition granting_clipboard : Clipboard :=
  {| writeText := Some (λ _, Normal tt) |}.

Definition denying_clipboard : Clipboard :=
  {| writeText := Some (λ _, Throw NotAllowedError) |}.

(** A toolkit that answers as Bootstrap does; the instance of an element
    is named by the element. *)
Definition toast_toolkit : Toolkit :=
  {| getOrCreateInstance := λ el _, Normal el;
     show := λ _, Normal tt |}.

Definition case_page : Host :=
  {| location_href := "https://example.org/case/42";
     navigator_clipboard := Some granting_clipboard;
     execCommand := λ _, Normal true;
     bootstrap := Some toast_toolkit |}.

Definition denied_page : Host :=
  {| location_href := "https://example.org/case/42";
     navigator_clipboard := Some denying_clipboard;
     execCommand := λ _, Normal true;
     bootstrap := Some toast_toolkit |}.

(** No async clipboard, and a copy command that reports failure. *)
Definition legacy_page : Host :=
  {| location_href := "https://example.org/case/42";
     navigator_clipboard := None;
     execCommand := λ _, Normal false;
     bootstrap := Some toast_toolkit |}.

(** A page whose address reads as the empty string. *)
Definition blank_page : Host :=
  {| location_href := "";
     navigator_clipboard := Some granting_clipboard;
     execCommand := λ _, Normal true;
     bootstrap := Some toast_toolkit |}.

Definition button_with (ds : gmap string string) : Element :=
  {| tagName := "button"; elem_id := ""; dataset := ds; value := "" |}.

Definition literal_button : Element :=
  button_with {[ "copyText" := "ABC123" ]}.

(** [<button data-copy-text="ABC123" data-copy-url>]: the flag is there,
    its value is the empty string. *)
Definition bare_flag_button : Element :=
  button_with {[ "copyText" := "ABC123"; "copyUrl" := "" ]}.

Definition url_button : Element :=
  button_with {[ "copyText" := "ABC123"; "copyUrl" := "true" ]}.

(** The literal text again, among other data attributes. *)
Definition tagged_button : Element :=
  {| tagName := "a"; elem_id := "copy-ref";
     dataset := {[ "copyText" := "ABC123"; "caseId" := "42" ]};
     value := "" |}.

Definition plain_button : Element :=
  button_with ∅.

Definition toast_div : Element :=
  {| tagName := "div"; elem_id := "copyToast"; dataset := ∅; value := "" |}.

(** A body with one button and the toast element. *)
Definition page_doc : Document :=
  {| nodes := {[ 0 := literal_button; 1 := toast_div ]};
     body := [Node 0 []; Node 1 []] |}.

(** The same body without the toast element. *)
Definition bare_doc : Document :=
  {| nodes := {[ 0 := literal_button ]}; body := [Node 0 []] |}.

Definition container_div : Element :=
  {| tagName := "div"; elem_id := ""; dataset := ∅; value := "" |}.

Definition icon : Element :=
  {| tagName := "i"; elem_id := ""; dataset := ∅; value := "" |}.

(** The usual markup: the button, with an icon inside it, sits in a
    container; the toast sits in a toast container. *)
Definition nested_doc : Document :=
  {| nodes := {[ 0 := literal_button; 1 := toast_div; 2 := container_div;
                 3 := icon; 4 := container_div ]};
     body := [Node 2 [Node 0 [Node 3 []]]; Node 4 [Node 1 []]] |}.

(** A text with a line feed in it. *)
Definition two_lines : string :=
  String.append "ABC" (String line_feed "123").

(** ** Wiring the buttons *)

(** The function given to [button.addEventListener("click", ...)]: the
    closure of the click listener over its [button]. *)
Inductive Listener :=
| CopyClick (button : nat).

(** The page when [DOMContentLoaded] fires: its document, the class tokens
    of the elements, and the listeners attached so far, by target and event
    type, in the order they were added. *)
Record Page := {
  page_document : Document;
  classList : gmap nat (list string);
  listeners : gmap (nat * string) (list Listener)
}.

Definition has_class (p : Page) (cls : string) (n : nat) : bool :=
  bool_decide (cls ∈ default [] (classList p !! n)).

(** [document.querySelectorAll("." + cls)]: the elements of the document
    with that class token, at any depth, in tree order. *)
Definition querySelectorAll_class (cls : string) (p : Page) : list nat :=
  List.filter (has_class p cls) (elements (page_document p)).

Definition listeners_of (p : Page) (target : nat) (type : string) :
    list Listener :=
  default [] (listeners p !! (target, type)).

(** [target.addEventListener(type, l)] for a function created at the call:
    it is added after the listeners already there. *)
Definition addEventListener (target : nat) (type : string) (l : Listener)
    (p : Page) : Page :=
  {| page_document := page_document p;
     classList := classList p;
     listeners :=
       <[(target, type) := listeners_of p target type ++ [l]]> (listeners p) |}.

(** The callback of [DOMContentLoaded]. *)
Definition on_DOMContentLoaded (p : Page) : Page :=
  let buttons := querySelectorAll_class "js-copy-btn" p in
  foldl (λ p button, addEventListener button "click" (CopyClick button) p)
        p buttons.

(** Calling a listener: the closure reads its button as it is now. *)
Definition run_listener (host : Host) (l : Listener) : M unit :=
  match l with
  | CopyClick button =>
      λ d,
        match nodes d !! button with
        | Some el => click_handler host el d
        | None => ret tt d
        end
  end.

(** Listeners called one after the other, each run to its end: the order
    of the browser when none of them suspends, and in any case when there is
    one listener only. *)
Fixpoint run_listeners (host : Host) (ls : list Listener) : M unit :=
  match ls with
  | [] => ret tt
  | l :: rest => run_listener host l ;;; run_listeners host rest
  end.

(** The element [n] and its ancestors inside a subtree, from [n] upwards. *)
Fixpoint path (n : nat) (t : Tree) : option (list nat) :=
  match t with
  | Node m kids =>
      if Nat.eqb m n then Some [m]
      else
        match first_some (path n) kids with
        | Some up => Some (up ++ [m])
        | None => None
        end
  end.

(** The way of an event on [target]: the target, then its ancestors up to
    the child of the body it is in.  An element outside the document is
    alone on its way. *)
Definition event_path (d : Document) (target : nat) : list nat :=
  default [target] (first_some (path target) (body d)).

(** Was the element a copy trigger when the page was wired? *)
Definition is_trigger (p : Page) (n : nat) : bool :=
  bool_decide (n ∈ elements (page_document p)) && has_class p "js-copy-btn" n.

(** A click on [target]: the event bubbles from the target through its
    ancestors, as the document has them at the click; on each of them the
    click listeners run in the order they were added. *)
Definition dispatch_click (host : Host) (p : Page) (target : nat) : M unit :=
  λ d,
    run_listeners host
      (List.flat_map (λ m, listeners_of p m "click") (event_path d target)) d.

(** Activations one after the other, each run to its end.  The fallback
    path never suspends, so there this is the order the browser runs them
    in; the primary path suspends at its [await] and never touches the
    document. *)
Fixpoint activations (host : Host) (buttons : list Element) : M unit :=
  match buttons with
  | [] => ret tt
  | button :: rest => click_handler host button ;;; activations host rest
  end.

(** ** More concrete pages *)

Definition SecurityError : JsError :=
  {| err_name := "SecurityError";
     err_message := "The operation is insecure." |}.

Definition TypeError : JsError :=
  {| err_name := "TypeError";
     err_message := "Illegal invocation" |}.

(** No async clipboard, and a copy command that throws. *)
Definition throwing_legacy_page : Host :=
  {| location_href := "https://example.org/case/42";
     navigator_clipboard := None;
     execCommand := λ _, Throw SecurityError;
     bootstrap := Some toast_toolkit |}.

(** A toolkit whose [getOrCreateInstance], once called, throws. *)
Definition broken_toolkit : Toolkit :=
  {| getOrCreateInstance := λ _ _, Throw TypeError;
     show := λ _, Normal tt |}.

Definition broken_toast_page : Host :=
  {| location_href := "https://example.org/case/42";
     navigator_clipboard := Some granting_clipboard;
     execCommand := λ _, Normal true;
     bootstrap := Some broken_toolkit |}.

(** The portal page at load: the button is a copy trigger, the toast
    element is not, no listener is attached yet. *)
Definition portal_page : Page :=
  {| page_document := page_doc;
     classList := {[ 0 := ["btn"; "js-copy-btn"]; 1 := ["toast"] ]};
     listeners := ∅ |}.

(** The same with the usual markup. *)
Definition nested_page : Page :=
  {| page_document := nested_doc;
     classList := {[ 0 := ["btn"; "js-copy-btn"]; 1 := ["toast"];
                     2 := ["card"]; 3 := ["bi"]; 4 := ["toast-container"] ]};
     listeners := ∅ |}.

(** Unfolding of the monad and of the DOM operations. *)
Ltac unfold_js :=
  unfold bind, try_catch, ret, host_call, createElement, setValue,
    appendChild, select, removeChild, getElementById, console_error,
    completion, final, events in *.


(** ** Trees of elements *)

Lemma Tree_forall_ind (P : Tree → Prop) :
  (∀ (n : nat) (kids : list Tree), Forall P kids → P (Node n kids)) →
  ∀ t : Tree, P t.
Proof.
  intros Hnode. fix IH 1. intros [n kids]. apply Hnode.
  induction kids as [|k kids IHkids]; constructor; [apply IH|exact IHkids].
Qed.

Lemma elem_of_flat_map {A B} (f : A → list B) (l : list A) (y : B) :
  y ∈ List.flat_map f l ↔ ∃ x, x ∈ l ∧ y ∈ f x.
Proof.
  rewrite list_elem_of_In, List.in_flat_map. split.
  - intros (x & Hx & Hy). exists x. by rewrite !list_elem_of_In.
  - intros (x & Hx & Hy). exists x. by rewrite <- !list_elem_of_In.
Qed.

Lemma flat_map_fixed {A} (f : A → list A) (l : list A) :
  Forall (λ x, f x = [x]) l → List.flat_map f l = l.
Proof.
  induction 1 as [|x l Hx _ IH]; [reflexivity|].
  simpl. by rewrite Hx, IH.
Qed.

Lemma first_some_none {A B} (f : A → option B) (l : list A) :
  Forall (λ x, f x = None) l → first_some f l = None.
Proof.
  induction 1 as [|x l Hx _ IH]; [reflexivity|].
  simpl. by rewrite Hx.
Qed.

Lemma root_flatten (t : Tree) : root t ∈ flatten t.
Proof. destruct t as [n kids]. simpl. by left. Qed.

Lemma roots_elements (n : nat) (l : list Tree) :
  n ∈ List.map root l → n ∈ List.flat_map flatten l.
Proof.
  rewrite list_elem_of_In, List.in_map_iff. intros (t & <- & Ht).
  apply elem_of_flat_map. exists t.
  split; [by apply list_elem_of_In|apply root_flatten].
Qed.

(** An element that is not in a subtree: nothing to prune, nothing found. *)
Lemma prune_absent (n : nat) (t : Tree) :
  n ∉ flatten t → prune n t = [t].
Proof.
  induction t as [m kids IH] using Tree_forall_ind. simpl. intros Hn.
  apply not_elem_of_cons in Hn as [Hne Hkids].
  destruct (Nat.eqb_spec m n) as [->|_]; [done|].
  f_equal. f_equal. apply flat_map_fixed.
  apply Forall_forall. intros k Hk.
  rewrite Forall_forall in IH. apply (IH k Hk).
  intros Hin. apply Hkids, elem_of_flat_map. by exists k.
Qed.

Lemma subtree_absent (n : nat) (t : Tree) :
  n ∉ flatten t → subtree n t = None.
Proof.
  induction t as [m kids IH] using Tree_forall_ind. simpl. intros Hn.
  apply not_elem_of_cons in Hn as [Hne Hkids].
  destruct (Nat.eqb_spec m n) as [->|_]; [done|].
  apply first_some_none, Forall_forall. intros k Hk.
  rewrite Forall_forall in IH. apply (IH k Hk).
  intros Hin. apply Hkids, elem_of_flat_map. by exists k.
Qed.

Lemma detach_absent (n : nat) (l : list Tree) :
  n ∉ List.flat_map flatten l → detach n l = l.
Proof.
  intros Hn. apply flat_map_fixed, Forall_forall. intros t Ht.
  apply prune_absent. intros Hin. apply Hn, elem_of_flat_map. by exists t.
Qed.

Lemma first_subtree_absent (n : nat) (l : list Tree) :
  n ∉ List.flat_map flatten l → first_some (subtree n) l = None.
Proof.
  intros Hn. apply first_some_none, Forall_forall. intros t Ht.
  apply subtree_absent. intros Hin. apply Hn, elem_of_flat_map. by exists t.
Qed.

Lemma remove_child_absent (n : nat) (l : list Tree) :
  n ∉ List.map root l → remove_child n l = l.
Proof.
  induction l as [|t l IH]; intros Hn; [reflexivity|].
  simpl in Hn. apply not_elem_of_cons in Hn as [Hne Hl]. simpl.
  destruct (Nat.eqb_spec (root t) n) as [Heq|_]; [by symmetry in Heq|].
  simpl. by rewrite (IH Hl).
Qed.

Lemma remove_child_last (n : nat) (l : list Tree) :
  remove_child n (l ++ [Node n []]) = remove_child n l.
Proof.
  unfold remove_child. rewrite List.filter_app. simpl.
  rewrite Nat.eqb_refl. simpl. apply app_nil_r.
Qed.

Lemma elements_last (d : Document) (n : nat) (ns : gmap nat Element) :
  elements {| nodes := ns; body := body d ++ [Node n []] |} =
    elements d ++ [n].
Proof. unfold elements. simpl. by rewrite List.flat_map_app. Qed.

Lemma fresh_not_element (d : Document) :
  doc_wf d → fresh (dom (nodes d)) ∉ elements d.
Proof.
  intros Hwf Hin. apply Hwf in Hin. by apply is_fresh in Hin.
Qed.

(** ** The two branches of [copyText] *)

Lemma copyText_primary (host : Host) (write : string → Completion unit)
    (v : string) (d : Document) :
  clipboard_writeText host = Some write →
  copyText host v d = (write v, d, [WriteText v]).
Proof.
  intros Hw. unfold copyText. rewrite Hw. reflexivity.
Qed.

(** The fallback, for a document in which the new element does not occur
    (so for every well-formed one).  When [execCommand] returns, whatever it
    returns, the input is removed again; when it throws, the exception
    leaves [copyText] at once and the input stays appended. *)
Lemma copyText_fallback (host : Host) (v : string) (d : Document) :
  clipboard_writeText host = None →
  doc_wf d →
  let n := fresh (dom (nodes d)) in
  copyText host v d =
    match execCommand host "copy" with
    | Normal _ =>
        (Normal tt,
         {| nodes := <[n := temp_input v]> (nodes d); body := body d |},
         [CreateElement "input" n; SetValue n v; AppendChild n; Select n;
          ExecCommand "copy"; RemoveChild n])
    | Throw e =>
        (Throw e,
         {| nodes := <[n := temp_input v]> (nodes d);
            body := body d ++ [Node n []] |},
         [CreateElement "input" n; SetValue n v; AppendChild n; Select n;
          ExecCommand "copy"])
    end.
Proof.
  intros Hw Hwf n.
  pose proof (fresh_not_element d Hwf) as Hn. fold n in Hn.
  assert (n ∉ List.map root (body d)) as Hroot.
  { intros Hin. by apply Hn, roots_elements. }
  unfold copyText. rewrite Hw.
  unfold bind, createElement, setValue, appendChild, select, host_call,
    removeChild, ret. fold n. simpl.
  rewrite alter_insert_eq. fold (temp_input v).
  rewrite (first_subtree_absent n (body d) Hn). simpl.
  rewrite (detach_absent n (body d) Hn).
  destruct (execCommand host "copy") as [ok|e]; [|reflexivity].
  rewrite bool_decide_eq_true_2.
  - rewrite remove_child_last, (remove_child_absent n (body d) Hroot).
    reflexivity.
  - rewrite List.map_app. apply elem_of_app. right. simpl. by left.
Qed.

(** ** Runs of the monad *)

Lemma bind_run {A B} (m : M A) (f : A → M B) (d : Document) :
  bind m f d =
    match completion (m d) with
    | Normal a =>
        (completion (f a (final (m d))),
         final (f a (final (m d))),
         events (m d) ++ events (f a (final (m d))))
    | Throw e => (Throw e, final (m d), events (m d))
    end.
Proof.
  unfold bind, completion, final, events.
  destruct (m d) as [[[a|e] d1] t1]; simpl; [|reflexivity].
  destruct (f a d1) as [[c d2] t2]; reflexivity.
Qed.

Lemma try_catch_run {A} (m : M A) (h : JsError → M A) (d : Document) :
  try_catch m h d =
    match completion (m d) with
    | Normal a => (Normal a, final (m d), events (m d))
    | Throw e =>
        (completion (h e (final (m d))),
         final (h e (final (m d))),
         events (m d) ++ events (h e (final (m d))))
    end.
Proof.
  unfold try_catch, completion, final, events.
  destruct (m d) as [[[a|e] d1] t1]; simpl; [reflexivity|].
  destruct (h e d1) as [[c d2] t2]; reflexivity.
Qed.

(** ** What each function sends to the browser *)

Section Observations.

Variable host : Host.

Lemma showCopiedToast_final (d : Document) :
  final (showCopiedToast host d) = d.
Proof.
  unfold showCopiedToast. unfold_js.
  destruct (element_by_id d "copyToast") as [el|]; [|reflexivity].
  destruct (bootstrap host) as [bs|]; [|reflexivity].
  destruct (getOrCreateInstance bs el _) as [inst|e]; [|reflexivity].
  reflexivity.
Qed.

Lemma showCopiedToast_quiet (d : Document) :
  write_requests (events (showCopiedToast host d)) = [] ∧
  console_entries (events (showCopiedToast host d)) = [] ∧
  List.filter is_dom_call (events (showCopiedToast host d)) = [].
Proof.
  unfold showCopiedToast. unfold_js.
  destruct (element_by_id d "copyToast") as [el|]; [|done].
  destruct (bootstrap host) as [bs|]; [|done].
  destruct (getOrCreateInstance bs el _) as [inst|e]; done.
Qed.

Lemma copyText_write_requests (v : string) (d : Document) :
  write_requests (events (copyText host v d)) = [(write_path host, v)].
Proof.
  unfold write_path, clipboard_available, copyText.
  destruct (clipboard_writeText host) as [write|]; [reflexivity|].
  unfold_js. simpl.
  destruct (execCommand host "copy") as [ok|e]; [|reflexivity].
  case_bool_decide; reflexivity.
Qed.

Lemma copyText_quiet (v : string) (d : Document) :
  console_entries (events (copyText host v d)) = [] ∧
  List.filter is_acknowledgment (events (copyText host v d)) = [].
Proof.
  unfold copyText.
  destruct (clipboard_writeText host) as [write|]; [done|].
  unfold_js. simpl.
  destruct (execCommand host "copy") as [ok|e]; [|done].
  case_bool_decide; done.
Qed.

(** The listener on a button whose resolved text is empty: nothing at all. *)
Lemma click_handler_empty (button : Element) (d : Document) :
  textToCopy host button = "" →
  click_handler host button d = (Normal tt, d, []).
Proof.
  intros Ht. unfold click_handler, click_body. rewrite Ht. reflexivity.
Qed.

(** The listener on a button whose resolved text is not empty: the [try]
    block is [copyText] on that text, then the toast. *)
Lemma click_body_submit (button : Element) :
  textToCopy host button ≠ "" →
  click_body host button =
    (copyText host (textToCopy host button) ;;; showCopiedToast host).
Proof.
  intros Ht. unfold click_body.
  destruct (String.eqb_spec (textToCopy host button) ""); [done|reflexivity].
Qed.

(** The listener never throws. *)
Lemma click_handler_completion (button : Element) (d : Document) :
  completion (click_handler host button d) = Normal tt.
Proof.
  unfold click_handler. rewrite try_catch_run.
  destruct (completion (click_body host button d)) as [[]|e]; reflexivity.
Qed.

Lemma click_handler_events (button : Element) (d : Document) :
  events (click_handler host button d) =
    events (click_body host button d) ++
    match completion (click_body host button d) with
    | Normal _ => []
    | Throw e => [ConsoleError "Copy failed:" e]
    end.
Proof.
  unfold click_handler. rewrite try_catch_run.
  destruct (completion (click_body host button d)) as [[]|e]; simpl.
  - unfold events at 1. simpl. by rewrite app_nil_r.
  - reflexivity.
Qed.

Lemma click_body_events_submit (button : Element) (d : Document) :
  textToCopy host button ≠ "" →
  events (click_body host button d) =
    events (copyText host (textToCopy host button) d) ++
    match completion (copyText host (textToCopy host button) d) with
    | Normal _ =>
        events (showCopiedToast host
                  (final (copyText host (textToCopy host button) d)))
    | Throw _ => []
    end.
Proof.
  intros Ht. rewrite (click_body_submit button Ht), bind_run.
  destruct (completion (copyText _ _ d)) as [[]|e]; simpl.
  - reflexivity.
  - unfold events at 1. simpl. by rewrite app_nil_r.
Qed.

Lemma click_body_console (button : Element) (d : Document) :
  console_entries (events (click_body host button d)) = [].
Proof.
  destruct (String.eqb_spec (textToCopy host button) "") as [Ht|Ht].
  - unfold click_body. rewrite Ht. reflexivity.
  - rewrite (click_body_events_submit button d Ht).
    unfold console_entries. rewrite omap_app.
    destruct (copyText_quiet (textToCopy host button) d) as [Hc _].
    unfold console_entries in Hc. rewrite Hc. simpl.
    destruct (completion (copyText _ _ d)); [|reflexivity].
    apply showCopiedToast_quiet.
Qed.

Lemma click_handler_write_requests (button : Element) (d : Document) :
  write_requests (events (click_handler host button d)) =
    if String.eqb (textToCopy host button) ""
    then []
    else [(write_path host, textToCopy host button)].
Proof.
  destruct (String.eqb_spec (textToCopy host button) "") as [Ht|Ht].
  - by rewrite (click_handler_empty button d Ht).
  - rewrite click_handler_events, (click_body_events_submit button d Ht).
    unfold write_requests. rewrite !omap_app.
    fold (write_requests (events (copyText host (textToCopy host button) d))).
    rewrite copyText_write_requests.
    destruct (completion (copyText _ _ d)) as [[]|e]; simpl.
    + destruct (showCopiedToast_quiet
                  (final (copyText host (textToCopy host button) d)))
        as [Hq _].
      unfold write_requests in Hq. rewrite Hq. simpl.
      destruct (completion (click_body host button d)); reflexivity.
    + destruct (completion (click_body host button d)); reflexivity.
Qed.

End Observations.

(** ** The document stays well formed *)

Lemma copyText_wf (host : Host) (v : string) (d : Document) :
  doc_wf d → doc_wf (final (copyText host v d)).
Proof.
  intros Hwf.
  destruct (clipboard_writeText host) as [write|] eqn:Hw.
  - by rewrite (copyText_primary host write v d Hw).
  - rewrite (copyText_fallback host v d Hw Hwf).
    destruct (execCommand host "copy") as [ok|e]; unfold final; simpl;
      intros m Hm; simpl; rewrite dom_insert_L.
    + apply elem_of_union_r. by apply Hwf.
    + rewrite elements_last in Hm. apply elem_of_app in Hm as [Hm|Hm].
      * apply elem_of_union_r. by apply Hwf.
      * apply elem_of_union_l. by apply list_elem_of_singleton in Hm as ->; apply elem_of_singleton.
Qed.

Lemma click_handler_wf (host : Host) (button : Element) (d : Document) :
  doc_wf d → doc_wf (final (click_handler host button d)).
Proof.
  intros Hwf.
  destruct (String.eqb_spec (textToCopy host button) "") as [Ht|Ht].
  - by rewrite (click_handler_empty host button d Ht).
  - pose proof (copyText_wf host (textToCopy host button) d Hwf) as Hc.
    pose proof (showCopiedToast_final host
                  (final (copyText host (textToCopy host button) d))) as Hs.
    unfold click_handler. rewrite (click_body_submit host button Ht).
    unfold_js.
    destruct (copyText host (textToCopy host button) d) as [[[[]|e] d1] t1];
      simpl in *; [|exact Hc].
    destruct (showCopiedToast host d1) as [[[[]|e] d2] t2]; simpl in *;
      by subst d2.
Qed.

Lemma page_doc_wf : doc_wf page_doc.
Proof.
  intros n Hn. apply elem_of_dom.
  apply elem_of_cons in Hn as [->|Hn]; [by eexists|].
  apply list_elem_of_singleton in Hn as ->. by eexists.
Defined.

Lemma nested_doc_wf : doc_wf nested_doc.
Proof.
  intros n Hn. apply elem_of_dom.
  unfold elements in Hn. simpl in Hn.
  repeat (apply elem_of_cons in Hn as [->|Hn]; [by eexists|]).
  by apply elem_of_nil in Hn.
Defined.

Example literal_on_case_page :
  click_handler case_page literal_button page_doc =
    (Normal tt, page_doc,
     [WriteText "ABC123";
      ToastGetOrCreateInstance 1 {| delay := 1500 |}; ToastShow 1]).
Proof. vm_compute. reflexivity. Qed.

Example url_on_case_page :
  events (click_handler case_page url_button page_doc) =
    [WriteText "https://example.org/case/42";
     ToastGetOrCreateInstance 1 {| delay := 1500 |}; ToastShow 1].
Proof. vm_compute. reflexivity. Qed.

Example literal_on_legacy_page :
  events (click_handler legacy_page literal_button page_doc) =
    [CreateElement "input" 2; SetValue 2 "ABC123"; AppendChild 2; Select 2;
     ExecCommand "copy"; RemoveChild 2;
     ToastGetOrCreateInstance 1 {| delay := 1500 |}; ToastShow 1] ∧
  body (final (click_handler legacy_page literal_button page_doc)) =
    [Node 0 []; Node 1 []].
Proof. vm_compute. split; reflexivity. Qed.

Example literal_on_denied_page :
  click_handler denied_page literal_button page_doc =
    (Normal tt, page_doc,
     [WriteText "ABC123"; ConsoleError "Copy failed:" NotAllowedError]).
Proof. vm_compute. reflexivity. Qed.

(** Where the listener leaves the document: where [copyText] left it. *)
Lemma click_handler_final (host : Host) (button : Element) (d : Document) :
  textToCopy host button ≠ "" →
  final (click_handler host button d) =
    final (copyText host (textToCopy host button) d).
Proof.
  intros Ht.
  pose proof (showCopiedToast_final host
                (final (copyText host (textToCopy host button) d))) as Hs.
  unfold click_handler. rewrite (click_body_submit host button Ht).
  unfold_js.
  destruct (copyText host (textToCopy host button) d) as [[[[]|e] d1] t1];
    simpl in *; [|reflexivity].
  destruct (showCopiedToast host d1) as [[[[]|e] d2] t2]; simpl in *;
    by subst d2.
Qed.

(** ** Request resolution *)

Lemma truthy_flag (button : Element) (name flag : string) :
  dataset button !! name = Some flag → flag ≠ "" →
  truthy (dataset_get button name) = true.
Proof.
  intros Hf Hne. unfold dataset_get. rewrite Hf. simpl.
  by destruct (String.eqb_spec flag "").
Qed.

Lemma textToCopy_url (host : Host) (button : Element) :
  truthy (dataset_get button "copyUrl") = true →
  textToCopy host button = location_href host.
Proof. intros Hf. unfold textToCopy. by rewrite Hf. Qed.

Lemma textToCopy_literal (host : Host) (button : Element) :
  truthy (dataset_get button "copyUrl") = false →
  textToCopy host button = or_default (dataset_get button "copyText") "".
Proof. intros Hf. unfold textToCopy. by rewrite Hf. Qed.

(** A flag attribute that is there with the empty string as its value
    does not select the address: the literal text is resolved. *)
Lemma textToCopy_bare_flag (host : Host) (button : Element) :
  dataset button !! "copyUrl" = Some "" →
  textToCopy host button = or_default (dataset_get button "copyText") "".
Proof.
  intros Hf. apply textToCopy_literal. unfold dataset_get. by rewrite Hf.
Qed.

Lemma submit_write_requests (host : Host) (button : Element) (d : Document) :
  textToCopy host button ≠ "" →
  write_requests (events (click_handler host button d)) =
    [(write_path host, textToCopy host button)].
Proof.
  intros Ht. rewrite click_handler_write_requests.
  by destruct (String.eqb_spec (textToCopy host button) "").
Qed.

(** C1 as the specification states it fails.  A button carrying the flag
    attribute with an empty value, [data-copy-url] written bare, and the
    literal text [ABC123]: the flag is present, and the click sends the
    literal text to the clipboard, not the page address.  And on a page whose
    address reads as the empty string a button with [data-copy-url="true"]
    sends nothing. *)
Lemma url_flag_presence_counterexample :
  (is_Some (dataset bare_flag_button !! "copyUrl") ∧
   click_handler case_page bare_flag_button page_doc =
     (Normal tt, page_doc,
      [WriteText "ABC123";
       ToastGetOrCreateInstance 1 {| delay := 1500 |}; ToastShow 1]) ∧
   location_href case_page = "https://example.org/case/42") ∧
  (is_Some (dataset url_button !! "copyUrl") ∧
   click_handler blank_page url_button page_doc = (Normal tt, page_doc, [])).
Proof.
  split; split.
  - by eexists.
  - split; vm_compute; reflexivity.
  - by eexists.
  - vm_compute. reflexivity.
Qed.

(** C1, amended: for every trigger element whose URL flag attribute is
    present with a non-empty value, on a page whose address is not empty,
    activating the trigger submits the page's full address to the
    clipboard-write path, whatever the literal-text attribute holds: the text
    resolved is the address, the [try] block is [copyText] on the address
    followed by the toast, and the one string the browser receives for the
    clipboard is the address. *)
Theorem url_flag_truthy_submits_address
    (host : Host) (button : Element) (d : Document) (flag : string) :
  dataset button !! "copyUrl" = Some flag →
  flag ≠ "" →
  location_href host ≠ "" →
  textToCopy host button = location_href host ∧
  click_body host button =
    (copyText host (location_href host) ;;; showCopiedToast host) ∧
  write_requests (events (click_handler host button d)) =
    [(write_path host, location_href host)].
Proof.
  intros Hf Hne Hhref.
  pose proof (textToCopy_url host button (truthy_flag button _ flag Hf Hne))
    as Ht.
  assert (textToCopy host button ≠ "") as Hnon by (by rewrite Ht).
  split; [exact Ht|]. split.
  - rewrite (click_body_submit host button Hnon). by rewrite Ht.
  - rewrite (submit_write_requests host button d Hnon). by rewrite Ht.
Qed.

Lemma url_flag_truthy_submits_address_witness :
  textToCopy case_page url_button = location_href case_page ∧
  click_body case_page url_button =
    (copyText case_page (location_href case_page) ;;;
     showCopiedToast case_page) ∧
  write_requests (events (click_handler case_page url_button page_doc)) =
    [(write_path case_page, location_href case_page)].
Proof.
  apply (url_flag_truthy_submits_address case_page url_button page_doc "true").
  - reflexivity.
  - discriminate.
  - discriminate.
Defined.

(** C4: for every trigger element with a non-empty literal-text attribute
    and no URL flag, activating the trigger submits exactly that string to
    the clipboard-write path: it is the text resolved, the [try] block is
    [copyText] on it followed by the toast, and it is the one string the
    browser receives for the clipboard. *)
Theorem literal_text_submitted
    (host : Host) (button : Element) (d : Document) (s : string) :
  dataset button !! "copyText" = Some s →
  s ≠ "" →
  dataset button !! "copyUrl" = None →
  textToCopy host button = s ∧
  click_body host button = (copyText host s ;;; showCopiedToast host) ∧
  write_requests (events (click_handler host button d)) =
    [(write_path host, s)].
Proof.
  intros Hs Hne Hu.
  assert (textToCopy host button = s) as Ht.
  { rewrite textToCopy_literal by (unfold dataset_get; by rewrite Hu).
    unfold dataset_get. rewrite Hs. simpl.
    by destruct (String.eqb_spec s ""). }
  assert (textToCopy host button ≠ "") as Hnon by (by rewrite Ht).
  split; [exact Ht|]. split.
  - rewrite (click_body_submit host button Hnon). by rewrite Ht.
  - rewrite (submit_write_requests host button d Hnon). by rewrite Ht.
Qed.

Lemma literal_text_submitted_witness :
  textToCopy legacy_page literal_button = "ABC123" ∧
  click_body legacy_page literal_button =
    (copyText legacy_page "ABC123" ;;; showCopiedToast legacy_page) ∧
  write_requests (events (click_handler legacy_page literal_button page_doc)) =
    [(write_path legacy_page, "ABC123")].
Proof.
  apply (literal_text_submitted legacy_page literal_button page_doc "ABC123").
  - reflexivity.
  - discriminate.
  - reflexivity.
Defined.

(** C5: a trigger element with neither a literal-text attribute nor the URL
    flag: the activation returns at once and without an error, the document
    is as it was and no call reaches the browser, so there is no clipboard
    write and no acknowledgment. *)
Theorem no_attributes_no_action
    (host : Host) (button : Element) (d : Document) :
  dataset button !! "copyText" = None →
  dataset button !! "copyUrl" = None →
  click_handler host button d = (Normal tt, d, []) ∧
  write_requests (events (click_handler host button d)) = [] ∧
  List.filter is_dom_call (events (click_handler host button d)) = [] ∧
  List.filter is_acknowledgment (events (click_handler host button d)) = [] ∧
  console_entries (events (click_handler host button d)) = [].
Proof.
  intros Hs Hu.
  assert (textToCopy host button = "") as Ht.
  { unfold textToCopy, dataset_get. by rewrite Hs, Hu. }
  rewrite (click_handler_empty host button d Ht). done.
Qed.

Lemma no_attributes_no_action_witness :
  click_handler case_page plain_button page_doc = (Normal tt, page_doc, []) ∧
  write_requests (events (click_handler case_page plain_button page_doc)) = [] ∧
  List.filter is_dom_call
    (events (click_handler case_page plain_button page_doc)) = [] ∧
  List.filter is_acknowledgment
    (events (click_handler case_page plain_button page_doc)) = [] ∧
  console_entries (events (click_handler case_page plain_button page_doc)) = [].
Proof.
  apply (no_attributes_no_action case_page plain_button page_doc);
    reflexivity.
Defined.

(** C9: when the URL flag selects the page address and the address is the
    empty string, the activation is abandoned in silence, whatever the
    literal-text attribute holds: the text resolved is the (empty) address,
    never the literal text, and no call reaches the browser. *)
Theorem url_flag_empty_address_abandoned
    (host : Host) (button : Element) (d : Document) (flag : string) :
  dataset button !! "copyUrl" = Some flag →
  flag ≠ "" →
  location_href host = "" →
  textToCopy host button = "" ∧
  click_handler host button d = (Normal tt, d, []).
Proof.
  intros Hf Hne Hhref.
  assert (textToCopy host button = "") as Ht.
  { rewrite (textToCopy_url host button (truthy_flag button _ flag Hf Hne)).
    exact Hhref. }
  split; [exact Ht|]. exact (click_handler_empty host button d Ht).
Qed.

Lemma url_flag_empty_address_abandoned_witness :
  dataset url_button !! "copyText" = Some "ABC123" ∧
  textToCopy blank_page url_button = "" ∧
  click_handler blank_page url_button page_doc = (Normal tt, page_doc, []).
Proof.
  split; [reflexivity|].
  apply (url_flag_empty_address_abandoned blank_page url_button page_doc "true").
  - reflexivity.
  - discriminate.
  - reflexivity.
Defined.

(** ** Failure containment *)

(** C2: for every activation the listener returns normally, so no error
    leaves it; and when a step of the [try] block (resolution, clipboard
    write or acknowledgment) throws an error, the activation writes exactly
    one console line, made of the prefix [Copy failed:] and that very error,
    after what the block had done.  A block that completes writes none. *)
Theorem click_handler_contains_errors
    (host : Host) (button : Element) (d : Document) :
  completion (click_handler host button d) = Normal tt ∧
  console_entries (events (click_handler host button d)) =
    match completion (click_body host button d) with
    | Throw error => [("Copy failed:", error)]
    | Normal _ => []
    end ∧
  events (click_handler host button d) =
    events (click_body host button d) ++
    match completion (click_body host button d) with
    | Throw error => [ConsoleError "Copy failed:" error]
    | Normal _ => []
    end.
Proof.
  split; [apply click_handler_completion|].
  rewrite click_handler_events. split; [|by destruct (completion _)].
  unfold console_entries. rewrite omap_app.
  pose proof (click_body_console host button d) as Hb.
  unfold console_entries in Hb. rewrite Hb.
  by destruct (completion (click_body host button d)).
Qed.

(** C7: an activation in which the clipboard write throws: the listener
    still returns normally, the toast widget is never called, and exactly one
    console line is written, carrying the error thrown. *)
Theorem write_throws_no_acknowledgment
    (host : Host) (button : Element) (d : Document) (error : JsError) :
  textToCopy host button ≠ "" →
  completion (copyText host (textToCopy host button) d) = Throw error →
  completion (click_handler host button d) = Normal tt ∧
  List.filter is_acknowledgment (events (click_handler host button d)) = [] ∧
  console_entries (events (click_handler host button d)) =
    [("Copy failed:", error)] ∧
  events (click_handler host button d) =
    events (copyText host (textToCopy host button) d) ++
    [ConsoleError "Copy failed:" error].
Proof.
  intros Ht Hthrow.
  split; [apply click_handler_completion|].
  assert (events (click_handler host button d) =
            events (copyText host (textToCopy host button) d) ++
            [ConsoleError "Copy failed:" error]) as Hev.
  { assert (completion (click_body host button d) = Throw error) as Hb.
    { by rewrite (click_body_submit host button Ht), bind_run, Hthrow. }
    rewrite click_handler_events, (click_body_events_submit host button d Ht).
    rewrite Hb, Hthrow. by rewrite app_nil_r. }
  destruct (copyText_quiet host (textToCopy host button) d) as [Hc Ha].
  rewrite Hev. split; [|split; [|reflexivity]].
  - rewrite List.filter_app, Ha. reflexivity.
  - unfold console_entries in *. rewrite omap_app, Hc. reflexivity.
Qed.

Lemma write_throws_no_acknowledgment_witness :
  completion (click_handler denied_page literal_button page_doc) = Normal tt ∧
  List.filter is_acknowledgment
    (events (click_handler denied_page literal_button page_doc)) = [] ∧
  console_entries (events (click_handler denied_page literal_button page_doc)) =
    [("Copy failed:", NotAllowedError)] ∧
  events (click_handler denied_page literal_button page_doc) =
    events (copyText denied_page (textToCopy denied_page literal_button)
              page_doc) ++
    [ConsoleError "Copy failed:" NotAllowedError].
Proof.
  apply (write_throws_no_acknowledgment denied_page literal_button page_doc
           NotAllowedError).
  - discriminate.
  - reflexivity.
Defined.

(** ** The clipboard write *)

Lemma strip_newlines_none (s : string) :
  no_line_break s = true → strip_newlines s = s.
Proof.
  induction s as [|c s IH]; [reflexivity|]. simpl.
  destruct (is_line_break c); [discriminate|].
  intros Hs. simpl. by rewrite (IH Hs).
Qed.

(** C3 as the specification states it fails, in two ways.  On a page
    without the asynchronous clipboard whose copy command throws, [copyText]
    throws after the [copy] call: [removeChild] is not reached, and when the
    listener has completed the input is still the last child of the body.
    And a request text with a line feed in it is assigned to the input,
    which, a text input, keeps it without the line feed: its value is not
    exactly the request text. *)
Lemma copyText_fallback_counterexample :
  (clipboard_available throwing_legacy_page = false ∧
   copyText throwing_legacy_page "ABC123" page_doc =
     (Throw SecurityError,
      {| nodes := <[2 := temp_input "ABC123"]> (nodes page_doc);
         body := [Node 0 []; Node 1 []; Node 2 []] |},
      [CreateElement "input" 2; SetValue 2 "ABC123"; AppendChild 2; Select 2;
       ExecCommand "copy"]) ∧
   completion (click_handler throwing_legacy_page literal_button page_doc) =
     Normal tt ∧
   body (final (click_handler throwing_legacy_page literal_button page_doc)) =
     [Node 0 []; Node 1 []; Node 2 []]) ∧
  (clipboard_available legacy_page = false ∧
   completion (copyText legacy_page two_lines page_doc) = Normal tt ∧
   value <$> nodes (final (copyText legacy_page two_lines page_doc)) !! 2 =
     Some "ABC123" ∧
   two_lines ≠ "ABC123").
Proof.
  split.
  - split; [reflexivity|]. split; [|split]; vm_compute; reflexivity.
  - split; [reflexivity|]. split; [vm_compute; reflexivity|].
    split; [vm_compute; reflexivity|discriminate].
Qed.

(** C3, amended: without the asynchronous clipboard, and with a copy
    command that returns, reporting success or failure ([ok] is any
    boolean), [copyText] on a well-formed document completes after exactly
    these calls, in this order: one [createElement("input")] yielding a new
    element, the request text assigned to its value, the element appended to
    the body, selected, the [copy] command, the element removed again.  The
    input keeps the text without its line feeds and carriage returns, so
    exactly the text when it has none.  The children of the body are then
    what they were, the new element nowhere in the document, and the heap has
    grown by that one input; and the body is as it was when a listener that
    submitted the text completes. *)
Theorem copyText_fallback_temporary_input
    (host : Host) (text : string) (d : Document) (ok : bool) :
  clipboard_available host = false →
  execCommand host "copy" = Normal ok →
  doc_wf d →
  ∃ tempInput : nat,
    nodes d !! tempInput = None ∧
    copyText host text d =
      (Normal tt,
       {| nodes := <[tempInput := temp_input text]> (nodes d);
          body := body d |},
       [CreateElement "input" tempInput; SetValue tempInput text;
        AppendChild tempInput; Select tempInput; ExecCommand "copy";
        RemoveChild tempInput]) ∧
    temp_input text =
      {| tagName := "input"; elem_id := ""; dataset := ∅;
         value := strip_newlines text |} ∧
    (no_line_break text = true → value (temp_input text) = text) ∧
    length (List.filter is_create (events (copyText host text d))) = 1 ∧
    (tempInput ∉ elements (final (copyText host text d))) ∧
    body (final (copyText host text d)) = body d ∧
    (∀ button : Element,
       textToCopy host button = text → text ≠ "" →
       body (final (click_handler host button d)) = body d).
Proof.
  intros Hav Hexec Hwf.
  assert (clipboard_writeText host = None) as Hw.
  { unfold clipboard_available in Hav.
    by destruct (clipboard_writeText host). }
  exists (fresh (dom (nodes d))).
  pose proof (copyText_fallback host text d Hw Hwf) as Hrun.
  simpl in Hrun. rewrite Hexec in Hrun.
  split; [apply not_elem_of_dom, is_fresh|].
  split; [exact Hrun|]. rewrite Hrun.
  split; [reflexivity|].
  split; [intros Hnone; simpl; by apply strip_newlines_none|].
  split; [reflexivity|]. split; [|split; [reflexivity|]].
  - unfold final, elements. simpl. by apply fresh_not_element.
  - intros button Hv Hne. rewrite click_handler_final by (by rewrite Hv).
    rewrite Hv, Hrun. reflexivity.
Qed.

Lemma copyText_fallback_temporary_input_witness :
  ∃ tempInput : nat,
    nodes nested_doc !! tempInput = None ∧
    copyText legacy_page two_lines nested_doc =
      (Normal tt,
       {| nodes := <[tempInput := temp_input two_lines]> (nodes nested_doc);
          body := body nested_doc |},
       [CreateElement "input" tempInput; SetValue tempInput two_lines;
        AppendChild tempInput; Select tempInput; ExecCommand "copy";
        RemoveChild tempInput]) ∧
    temp_input two_lines =
      {| tagName := "input"; elem_id := ""; dataset := ∅;
         value := strip_newlines two_lines |} ∧
    (no_line_break two_lines = true → value (temp_input two_lines) = two_lines) ∧
    length (List.filter is_create
              (events (copyText legacy_page two_lines nested_doc))) = 1 ∧
    (tempInput ∉ elements (final (copyText legacy_page two_lines nested_doc))) ∧
    body (final (copyText legacy_page two_lines nested_doc)) =
      body nested_doc ∧
    (∀ button : Element,
       textToCopy legacy_page button = two_lines → two_lines ≠ "" →
       body (final (click_handler legacy_page button nested_doc)) =
         body nested_doc).
Proof.
  apply (copyText_fallback_temporary_input legacy_page two_lines nested_doc
           false).
  - reflexivity.
  - reflexivity.
  - exact nested_doc_wf.
Defined.

(** C6: when [navigator.clipboard.writeText] exists and its promise is
    fulfilled, [copyText] makes that one call and completes: no call of the
    fallback is made, no element is created, the document is untouched. *)
Theorem copyText_primary_no_fallback
    (host : Host) (write : string → Completion unit)
    (value : string) (d : Document) :
  clipboard_writeText host = Some write →
  write value = Normal tt →
  copyText host value d = (Normal tt, d, [WriteText value]) ∧
  List.filter is_create (events (copyText host value d)) = [] ∧
  List.filter is_dom_call (events (copyText host value d)) = [] ∧
  nodes (final (copyText host value d)) = nodes d.
Proof.
  intros Hw Hok.
  rewrite (copyText_primary host write value d Hw), Hok. done.
Qed.

Lemma copyText_primary_no_fallback_witness :
  copyText case_page "ABC123" page_doc =
    (Normal tt, page_doc, [WriteText "ABC123"]) ∧
  List.filter is_create (events (copyText case_page "ABC123" page_doc)) = [] ∧
  List.filter is_dom_call (events (copyText case_page "ABC123" page_doc)) = [] ∧
  nodes (final (copyText case_page "ABC123" page_doc)) = nodes page_doc.
Proof.
  apply (copyText_primary_no_fallback case_page (λ _, Normal tt)
           "ABC123" page_doc); reflexivity.
Defined.

(** ** The acknowledgment *)

(** The lookup by id looks at every element of the document, at any
    depth: it finds none exactly when none has the id. *)
Lemma element_by_id_None (d : Document) (i : string) :
  element_by_id d i = None ↔
  ∀ n : nat, n ∈ elements d → has_id d i n = false.
Proof.
  unfold element_by_id. split.
  - intros Hnone n Hn. apply list_elem_of_In in Hn.
    exact (List.find_none _ _ Hnone n Hn).
  - intros Hall. destruct (List.find _ _) as [n|] eqn:Hfind; [|reflexivity].
    apply List.find_some in Hfind as [Hn Hid].
    apply list_elem_of_In in Hn. by rewrite (Hall n Hn) in Hid.
Qed.

Lemma element_by_id_Some (d : Document) (i : string) (n : nat) :
  element_by_id d i = Some n → n ∈ elements d ∧ has_id d i n = true.
Proof.
  unfold element_by_id. intros Hfind.
  apply List.find_some in Hfind as [Hn Hid].
  by apply list_elem_of_In in Hn.
Qed.

(** C8: [showCopiedToast] does nothing, and throws nothing, when no element
    of the document, at any depth, has the id [copyToast] or when
    [bootstrap] is not defined.  Otherwise its first call asks the toolkit for the instance of
    that element, with a delay of exactly 1500, and, that call having
    returned an instance, its second and last call shows that instance.  The
    document is never changed. *)
Theorem showCopiedToast_no_op_or_show (host : Host) (d : Document) :
  (element_by_id d "copyToast" = None ∨ bootstrap host = None →
   showCopiedToast host d = (Normal tt, d, [])) ∧
  (∀ (toastEl : nat) (bs : Toolkit),
     element_by_id d "copyToast" = Some toastEl →
     bootstrap host = Some bs →
     showCopiedToast host d =
       match getOrCreateInstance bs toastEl {| delay := 1500 |} with
       | Normal toast =>
           (show bs toast, d,
            [ToastGetOrCreateInstance toastEl {| delay := 1500 |};
             ToastShow toast])
       | Throw error =>
           (Throw error, d,
            [ToastGetOrCreateInstance toastEl {| delay := 1500 |}])
       end).
Proof.
  split.
  - intros Hno. unfold showCopiedToast. unfold_js.
    destruct (element_by_id d "copyToast") as [el|]; [|reflexivity].
    destruct Hno as [Hno|Hno]; [discriminate|]. by rewrite Hno.
  - intros toastEl bs Hel Hbs. unfold showCopiedToast. unfold_js.
    rewrite Hel, Hbs.
    destruct (getOrCreateInstance bs toastEl _) as [toast|error];
      [|reflexivity].
    by destruct (show bs toast).
Qed.

Lemma showCopiedToast_no_op_or_show_witness :
  showCopiedToast case_page bare_doc = (Normal tt, bare_doc, []) ∧
  showCopiedToast case_page page_doc =
    (Normal tt, page_doc,
     [ToastGetOrCreateInstance 1 {| delay := 1500 |}; ToastShow 1]) ∧
  showCopiedToast case_page nested_doc =
    (Normal tt, nested_doc,
     [ToastGetOrCreateInstance 1 {| delay := 1500 |}; ToastShow 1]).
Proof.
  split; [|split].
  - apply (proj1 (showCopiedToast_no_op_or_show case_page bare_doc)).
    left. reflexivity.
  - apply (proj2 (showCopiedToast_no_op_or_show case_page page_doc)
             1 toast_toolkit); reflexivity.
  - apply (proj2 (showCopiedToast_no_op_or_show case_page nested_doc)
             1 toast_toolkit); reflexivity.
Defined.

(** ** Determinism *)

(** C10: two activations whose buttons carry the same literal-text and
    URL-flag attributes, on pages with the same address and the same
    availability of the asynchronous clipboard, resolve the same text and
    hand it to the clipboard along the same path, whatever else differs (the
    document, how the clipboard and the copy command answer, the toolkit). *)
Theorem resolution_deterministic
    (host1 host2 : Host) (button1 button2 : Element) (d1 d2 : Document) :
  dataset button1 !! "copyText" = dataset button2 !! "copyText" →
  dataset button1 !! "copyUrl" = dataset button2 !! "copyUrl" →
  location_href host1 = location_href host2 →
  clipboard_available host1 = clipboard_available host2 →
  textToCopy host1 button1 = textToCopy host2 button2 ∧
  write_path host1 = write_path host2 ∧
  write_requests (events (click_handler host1 button1 d1)) =
    write_requests (events (click_handler host2 button2 d2)).
Proof.
  intros Hs Hu Hhref Hav.
  assert (textToCopy host1 button1 = textToCopy host2 button2) as Ht.
  { unfold textToCopy, dataset_get. by rewrite Hs, Hu, Hhref. }
  assert (write_path host1 = write_path host2) as Hp.
  { unfold write_path. by rewrite Hav. }
  split; [exact Ht|]. split; [exact Hp|].
  rewrite !click_handler_write_requests. by rewrite Ht, Hp.
Qed.

Lemma resolution_deterministic_witness :
  textToCopy case_page literal_button = textToCopy denied_page tagged_button ∧
  write_path case_page = write_path denied_page ∧
  write_requests (events (click_handler case_page literal_button page_doc)) =
    write_requests (events (click_handler denied_page tagged_button bare_doc)).
Proof.
  apply (resolution_deterministic case_page denied_page
           literal_button tagged_button page_doc bare_doc); reflexivity.
Defined.

Example portal_page_wired :
  map_to_list (listeners (on_DOMContentLoaded portal_page)) =
    [((0, "click"), [CopyClick 0])] ∧
  dispatch_click case_page (on_DOMContentLoaded portal_page) 0 page_doc =
    (Normal tt, page_doc,
     [WriteText "ABC123";
      ToastGetOrCreateInstance 1 {| delay := 1500 |}; ToastShow 1]) ∧
  dispatch_click case_page (on_DOMContentLoaded portal_page) 1 page_doc =
    (Normal tt, page_doc, []).
Proof. vm_compute. repeat split; reflexivity. Qed.

Example throwing_legacy_page_twice :
  body (final (activations throwing_legacy_page
                 [literal_button; literal_button] page_doc)) =
    [Node 0 []; Node 1 []; Node 2 []; Node 3 []].
Proof. vm_compute. reflexivity. Qed.

(** The usual markup: the nested button is wired, the nested toast is
    found, and a click on the icon inside the button reaches the button. *)
Example nested_page_wired :
  map_to_list (listeners (on_DOMContentLoaded nested_page)) =
    [((0, "click"), [CopyClick 0])] ∧
  event_path nested_doc 3 = [3; 0; 2] ∧
  dispatch_click case_page (on_DOMContentLoaded nested_page) 3 nested_doc =
    (Normal tt, nested_doc,
     [WriteText "ABC123";
      ToastGetOrCreateInstance 1 {| delay := 1500 |}; ToastShow 1]).
Proof. vm_compute. repeat split; reflexivity. Qed.

(** ** Failures of the write and of the toast, step by step *)

Lemma click_handler_submit_run (host : Host) (button : Element) (d : Document) :
  textToCopy host button ≠ "" →
  click_handler host button d =
    try_catch
      (copyText host (textToCopy host button) ;;; showCopiedToast host)
      (λ error, console_error "Copy failed:" error) d.
Proof.
  intros Ht. unfold click_handler. by rewrite (click_body_submit host button Ht).
Qed.

(** The listener on the fallback path when the copy command throws. *)
Lemma click_handler_exec_throw
    (host : Host) (button : Element) (d : Document) (error : JsError) :
  clipboard_available host = false →
  execCommand host "copy" = Throw error →
  doc_wf d →
  textToCopy host button ≠ "" →
  click_handler host button d =
    (Normal tt,
     {| nodes := <[fresh (dom (nodes d)) :=
                     temp_input (textToCopy host button)]> (nodes d);
        body := body d ++ [Node (fresh (dom (nodes d))) []] |},
     [CreateElement "input" (fresh (dom (nodes d)));
      SetValue (fresh (dom (nodes d))) (textToCopy host button);
      AppendChild (fresh (dom (nodes d))); Select (fresh (dom (nodes d)));
      ExecCommand "copy"; ConsoleError "Copy failed:" error]).
Proof.
  intros Hav Hexec Hwf Ht.
  assert (clipboard_writeText host = None) as Hw.
  { unfold clipboard_available in Hav. by destruct (clipboard_writeText host). }
  pose proof (copyText_fallback host (textToCopy host button) d Hw Hwf) as Hrun.
  simpl in Hrun. rewrite Hexec in Hrun.
  rewrite (click_handler_submit_run host button d Ht).
  unfold try_catch, bind at 1. rewrite Hrun. reflexivity.
Qed.

(** X1: when [navigator.clipboard.writeText] exists and its promise is
    rejected, the listener does not try the legacy path: the only calls are
    the rejected write and one console line carrying the rejection, the
    document is untouched and the toast is not shown. *)
Theorem primary_rejection_no_fallback
    (host : Host) (write : string → Completion unit)
    (button : Element) (d : Document) (error : JsError) :
  clipboard_writeText host = Some write →
  textToCopy host button ≠ "" →
  write (textToCopy host button) = Throw error →
  click_handler host button d =
    (Normal tt, d,
     [WriteText (textToCopy host button); ConsoleError "Copy failed:" error]).
Proof.
  intros Hw Ht Hrej.
  rewrite (click_handler_submit_run host button d Ht).
  unfold try_catch, bind at 1.
  rewrite (copyText_primary host write _ d Hw), Hrej. reflexivity.
Qed.

Lemma primary_rejection_no_fallback_witness :
  click_handler denied_page literal_button page_doc =
    (Normal tt, page_doc,
     [WriteText (textToCopy denied_page literal_button);
      ConsoleError "Copy failed:" NotAllowedError]).
Proof.
  apply (primary_rejection_no_fallback denied_page (λ _, Throw NotAllowedError)
           literal_button page_doc NotAllowedError).
  - reflexivity.
  - discriminate.
  - reflexivity.
Defined.

(** X2: on the fallback path, when [document.execCommand] throws, the
    temporary input is not removed: the listener returns normally having
    written one console line, the toast is not shown, and the new input,
    holding the text without its line breaks, is left as the last child of
    the body. *)
Theorem fallback_throw_leaves_input
    (host : Host) (button : Element) (d : Document) (error : JsError) :
  clipboard_available host = false →
  execCommand host "copy" = Throw error →
  doc_wf d →
  textToCopy host button ≠ "" →
  ∃ tempInput : nat,
    nodes d !! tempInput = None ∧
    click_handler host button d =
      (Normal tt,
       {| nodes := <[tempInput := temp_input (textToCopy host button)]>
                     (nodes d);
          body := body d ++ [Node tempInput []] |},
       [CreateElement "input" tempInput;
        SetValue tempInput (textToCopy host button);
        AppendChild tempInput; Select tempInput;
        ExecCommand "copy"; ConsoleError "Copy failed:" error]).
Proof.
  intros Hav Hexec Hwf Ht. exists (fresh (dom (nodes d))).
  split; [apply not_elem_of_dom, is_fresh|].
  by apply click_handler_exec_throw.
Qed.

Lemma fallback_throw_leaves_input_witness :
  ∃ tempInput : nat,
    nodes page_doc !! tempInput = None ∧
    click_handler throwing_legacy_page literal_button page_doc =
      (Normal tt,
       {| nodes := <[tempInput :=
                       temp_input (textToCopy throwing_legacy_page
                                     literal_button)]> (nodes page_doc);
          body := body page_doc ++ [Node tempInput []] |},
       [CreateElement "input" tempInput;
        SetValue tempInput (textToCopy throwing_legacy_page literal_button);
        AppendChild tempInput; Select tempInput;
        ExecCommand "copy"; ConsoleError "Copy failed:" SecurityError]).
Proof.
  apply (fallback_throw_leaves_input throwing_legacy_page literal_button
           page_doc SecurityError).
  - reflexivity.
  - reflexivity.
  - exact page_doc_wf.
  - discriminate.
Defined.

(** X3: when the clipboard write succeeds and the toast then throws, the
    text has been handed to the clipboard all the same, and the error of the
    toast is what the console line [Copy failed:] carries. *)
Theorem toast_failure_logged_after_write
    (host : Host) (button : Element) (d : Document) (error : JsError) :
  textToCopy host button ≠ "" →
  completion (copyText host (textToCopy host button) d) = Normal tt →
  completion (showCopiedToast host
                (final (copyText host (textToCopy host button) d))) =
    Throw error →
  completion (click_handler host button d) = Normal tt ∧
  write_requests (events (click_handler host button d)) =
    [(write_path host, textToCopy host button)] ∧
  events (click_handler host button d) =
    events (copyText host (textToCopy host button) d) ++
    events (showCopiedToast host
              (final (copyText host (textToCopy host button) d))) ++
    [ConsoleError "Copy failed:" error].
Proof.
  intros Ht Hcopy Htoast.
  split; [apply click_handler_completion|].
  split; [by apply submit_write_requests|].
  assert (completion (click_body host button d) = Throw error) as Hb.
  { by rewrite (click_body_submit host button Ht), bind_run, Hcopy, Htoast. }
  rewrite click_handler_events, (click_body_events_submit host button d Ht).
  rewrite Hb, Hcopy. by rewrite <- app_assoc.
Qed.

Lemma toast_failure_logged_after_write_witness :
  events (click_handler broken_toast_page literal_button page_doc) =
    [WriteText "ABC123";
     ToastGetOrCreateInstance 1 {| delay := 1500 |};
     ConsoleError "Copy failed:" TypeError].
Proof.
  apply (proj2 (proj2 (toast_failure_logged_after_write broken_toast_page
                         literal_button page_doc TypeError
                         ltac:(discriminate) eq_refl eq_refl))).
Defined.

(** ** When an activation is silent *)

Lemma textToCopy_empty_iff (host : Host) (button : Element) :
  textToCopy host button = "" ↔
  if truthy (dataset_get button "copyUrl")
  then location_href host = ""
  else dataset button !! "copyText" = None ∨
       dataset button !! "copyText" = Some "".
Proof.
  unfold textToCopy.
  destruct (truthy (dataset_get button "copyUrl")); [reflexivity|].
  unfold dataset_get.
  destruct (dataset button !! "copyText") as [s|]; simpl.
  - destruct (String.eqb_spec s "") as [->|Hne]; simpl.
    + split; [by right|done].
    + split; [done|]. intros [?|[=]]; [done|]. by subst.
  - split; [by left|done].
Qed.

(** X4: an activation makes no call at all exactly when nothing is
    resolved: with a truthy URL flag, when the page address is empty; without
    it, when the literal-text attribute is missing or is the empty string. *)
Theorem silent_exactly_when_nothing_resolved
    (host : Host) (button : Element) (d : Document) :
  events (click_handler host button d) = [] ↔
  if truthy (dataset_get button "copyUrl")
  then location_href host = ""
  else dataset button !! "copyText" = None ∨
       dataset button !! "copyText" = Some "".
Proof.
  rewrite <- textToCopy_empty_iff. split.
  - intros Hev.
    destruct (String.eqb_spec (textToCopy host button) "") as [Ht|Ht]; [done|].
    pose proof (submit_write_requests host button d Ht) as Hw.
    rewrite Hev in Hw. discriminate.
  - intros Ht. by rewrite (click_handler_empty host button d Ht).
Qed.

(** ** What an activation leaves alone *)

Lemma copyText_nodes_kept
    (host : Host) (v : string) (d : Document) (n : nat) (el : Element) :
  nodes d !! n = Some el →
  nodes (final (copyText host v d)) !! n = Some el.
Proof.
  intros Hn.
  assert (fresh (dom (nodes d)) ≠ n) as Hne.
  { intros <-. apply (is_fresh (dom (nodes d))). apply elem_of_dom. by eexists. }
  unfold copyText.
  destruct (clipboard_writeText host) as [write|]; [exact Hn|].
  unfold_js. simpl.
  destruct (execCommand host "copy") as [ok|e]; simpl.
  - case_bool_decide; simpl;
      by rewrite alter_insert_eq, lookup_insert_ne.
  - by rewrite alter_insert_eq, lookup_insert_ne.
Qed.

(** X5: an activation never changes or deletes an element that exists when
    it starts: the button, the toast element and every other element are in
    the heap afterwards with the same tag, id, data attributes and value. *)
Theorem existing_elements_untouched
    (host : Host) (button : Element) (d : Document) (n : nat) (el : Element) :
  nodes d !! n = Some el →
  nodes (final (click_handler host button d)) !! n = Some el.
Proof.
  intros Hn.
  destruct (String.eqb_spec (textToCopy host button) "") as [Ht|Ht].
  - by rewrite (click_handler_empty host button d Ht).
  - rewrite (click_handler_final host button d Ht).
    by apply copyText_nodes_kept.
Qed.

Lemma existing_elements_untouched_witness :
  nodes (final (click_handler throwing_legacy_page literal_button page_doc))
    !! 1 = Some toast_div.
Proof.
  apply (existing_elements_untouched throwing_legacy_page literal_button
           page_doc 1 toast_div).
  reflexivity.
Defined.

(** ** Bounds on one activation *)

Lemma copyText_creates (host : Host) (v : string) (d : Document) :
  (length (List.filter is_create (events (copyText host v d))) ≤ 1)%nat.
Proof.
  unfold copyText.
  destruct (clipboard_writeText host) as [write|]; [simpl; lia|].
  unfold_js. simpl.
  destruct (execCommand host "copy") as [ok|e]; simpl; [|lia].
  case_bool_decide; simpl; lia.
Qed.

Lemma showCopiedToast_creates (host : Host) (d : Document) :
  List.filter is_create (events (showCopiedToast host d)) = [].
Proof.
  unfold showCopiedToast. unfold_js.
  destruct (element_by_id d "copyToast") as [el|]; [|done].
  destruct (bootstrap host) as [bs|]; [|done].
  destruct (getOrCreateInstance bs el _) as [inst|e]; done.
Qed.

(** X8: one activation hands at most one string to the clipboard, creates
    at most one element and writes at most one line to the console. *)
Theorem one_request_one_input_one_log
    (host : Host) (button : Element) (d : Document) :
  (length (write_requests (events (click_handler host button d))) ≤ 1)%nat ∧
  (length (List.filter is_create (events (click_handler host button d))) ≤ 1)%nat ∧
  (length (console_entries (events (click_handler host button d))) ≤ 1)%nat.
Proof.
  split; [|split].
  - rewrite click_handler_write_requests.
    destruct (String.eqb _ _); simpl; lia.
  - destruct (String.eqb_spec (textToCopy host button) "") as [Ht|Ht].
    { rewrite (click_handler_empty host button d Ht). simpl. lia. }
    rewrite click_handler_events, (click_body_events_submit host button d Ht).
    rewrite !List.filter_app, !length_app.
    pose proof (copyText_creates host (textToCopy host button) d) as Hc.
    assert (length (List.filter is_create
              match completion (copyText host (textToCopy host button) d) with
              | Normal _ =>
                  events (showCopiedToast host
                    (final (copyText host (textToCopy host button) d)))
              | Throw _ => []
              end) = 0) as Hs.
    { destruct (completion (copyText _ _ d)); [|reflexivity].
      by rewrite showCopiedToast_creates. }
    assert (length (List.filter is_create
              match completion (click_body host button d) with
              | Normal _ => []
              | Throw e => [ConsoleError "Copy failed:" e]
              end) = 0) as Hl.
    { by destruct (completion (click_body host button d)). }
    lia.
  - rewrite click_handler_events. unfold console_entries. rewrite omap_app.
    pose proof (click_body_console host button d) as Hb.
    unfold console_entries in Hb. rewrite Hb.
    destruct (completion (click_body host button d)); simpl; lia.
Qed.

(** ** Activations one after the other *)

Lemma activations_cons (host : Host) (button : Element)
    (rest : list Element) (d : Document) :
  activations host (button :: rest) d =
    (completion (activations host rest (final (click_handler host button d))),
     final (activations host rest (final (click_handler host button d))),
     events (click_handler host button d) ++
     events (activations host rest (final (click_handler host button d)))).
Proof.
  simpl. rewrite bind_run, click_handler_completion. reflexivity.
Qed.

Lemma activations_cons_completion (host : Host) (button : Element)
    (rest : list Element) (d : Document) :
  completion (activations host (button :: rest) d) =
    completion (activations host rest (final (click_handler host button d))).
Proof. by rewrite activations_cons. Qed.

Lemma activations_cons_final (host : Host) (button : Element)
    (rest : list Element) (d : Document) :
  final (activations host (button :: rest) d) =
    final (activations host rest (final (click_handler host button d))).
Proof. by rewrite activations_cons. Qed.

Lemma activations_cons_events (host : Host) (button : Element)
    (rest : list Element) (d : Document) :
  events (activations host (button :: rest) d) =
    events (click_handler host button d) ++
    events (activations host rest (final (click_handler host button d))).
Proof. by rewrite activations_cons. Qed.

Lemma click_handler_body_kept (host : Host) (button : Element) (d : Document) :
  clipboard_available host = true ∨
    (∃ ok : bool, execCommand host "copy" = Normal ok) →
  doc_wf d →
  body (final (click_handler host button d)) = body d.
Proof.
  intros Hhost Hwf.
  destruct (String.eqb_spec (textToCopy host button) "") as [Ht|Ht].
  { by rewrite (click_handler_empty host button d Ht). }
  rewrite (click_handler_final host button d Ht).
  destruct (clipboard_writeText host) as [write|] eqn:Hw.
  - by rewrite (copyText_primary host write _ d Hw).
  - destruct Hhost as [Hav|[ok Hexec]].
    + unfold clipboard_available in Hav. by rewrite Hw in Hav.
    + rewrite (copyText_fallback host _ d Hw Hwf), Hexec. reflexivity.
Qed.

(** X6: on a page where the asynchronous clipboard exists, or where the
    copy command returns, any series of activations, on any buttons, ends
    normally and leaves the children of the body exactly as they were: no
    temporary input survives. *)
Theorem activations_keep_body
    (host : Host) (buttons : list Element) (d : Document) :
  clipboard_available host = true ∨
    (∃ ok : bool, execCommand host "copy" = Normal ok) →
  doc_wf d →
  completion (activations host buttons d) = Normal tt ∧
  body (final (activations host buttons d)) = body d ∧
  doc_wf (final (activations host buttons d)).
Proof.
  intros Hhost. revert d.
  induction buttons as [|button rest IH]; intros d Hwf; [done|].
  rewrite activations_cons_completion, activations_cons_final.
  destruct (IH (final (click_handler host button d))
              (click_handler_wf host button d Hwf)) as (Hc & Hb & Hw).
  split; [exact Hc|]. split; [|exact Hw].
  rewrite Hb. by apply click_handler_body_kept.
Qed.

Lemma activations_keep_body_witness :
  completion (activations legacy_page
                [literal_button; plain_button; url_button] page_doc) =
    Normal tt ∧
  body (final (activations legacy_page
                 [literal_button; plain_button; url_button] page_doc)) =
    body page_doc ∧
  doc_wf (final (activations legacy_page
                   [literal_button; plain_button; url_button] page_doc)).
Proof.
  apply (activations_keep_body legacy_page
           [literal_button; plain_button; url_button] page_doc).
  - right. exists false. reflexivity.
  - exact page_doc_wf.
Defined.

(** X7: on a page without the asynchronous clipboard whose copy command
    throws, every activation that resolves a text leaves one more input in
    the body: after a series of them the old children are still there, in
    order, followed by as many new ones as there were activations, and the
    console has one [Copy failed:] line for each. *)
Theorem activations_leave_one_input_each
    (host : Host) (buttons : list Element) (d : Document) (error : JsError) :
  clipboard_available host = false →
  execCommand host "copy" = Throw error →
  Forall (λ button, textToCopy host button ≠ "") buttons →
  doc_wf d →
  body d `prefix_of` body (final (activations host buttons d)) ∧
  (length (body (final (activations host buttons d))) =
     length (body d) + length buttons)%nat ∧
  console_entries (events (activations host buttons d)) =
    replicate (length buttons) ("Copy failed:", error).
Proof.
  intros Hav Hexec Hall. revert d.
  induction Hall as [|button rest Ht _ IH]; intros d Hwf.
  { unfold final, events. simpl. split; [done|]. split; [lia|done]. }
  rewrite activations_cons_final, activations_cons_events.
  destruct (IH (final (click_handler host button d))
              (click_handler_wf host button d Hwf)) as (Hp & Hl & Hc).
  pose proof (click_handler_exec_throw host button d error Hav Hexec Hwf Ht)
    as Hstep.
  assert (body (final (click_handler host button d)) =
            body d ++ [Node (fresh (dom (nodes d))) []]) as Hbody
    by (by rewrite Hstep).
  assert (console_entries (events (click_handler host button d)) =
            [("Copy failed:", error)]) as Hlog
    by (by rewrite Hstep).
  rewrite Hbody in Hp, Hl.
  split; [|split].
  - etrans; [|exact Hp]. by apply prefix_app_r.
  - rewrite Hl, length_app. simpl. lia.
  - unfold console_entries in *. rewrite omap_app, Hlog, Hc. reflexivity.
Qed.

Lemma activations_leave_one_input_each_witness :
  body page_doc `prefix_of`
    body (final (activations throwing_legacy_page
                   [literal_button; url_button] page_doc)) ∧
  (length (body (final (activations throwing_legacy_page
                          [literal_button; url_button] page_doc))) =
     length (body page_doc) + length [literal_button; url_button])%nat ∧
  console_entries (events (activations throwing_legacy_page
                             [literal_button; url_button] page_doc)) =
    replicate (length [literal_button; url_button])
      ("Copy failed:", SecurityError).
Proof.
  apply (activations_leave_one_input_each throwing_legacy_page
           [literal_button; url_button] page_doc SecurityError).
  - reflexivity.
  - reflexivity.
  - repeat constructor; discriminate.
  - exact page_doc_wf.
Defined.

(** ** Wiring at [DOMContentLoaded] *)

Lemma listeners_of_addEventListener
    (p : Page) (target n : nat) (type type' : string) (l : Listener) :
  listeners_of (addEventListener target type l p) n type' =
    if bool_decide ((target, type) = (n, type'))
    then listeners_of p target type ++ [l]
    else listeners_of p n type'.
Proof.
  unfold listeners_of at 1, addEventListener. simpl.
  case_bool_decide as Heq.
  - rewrite Heq, lookup_insert_eq. simpl. by inversion Heq.
  - by rewrite lookup_insert_ne.
Qed.

(** Adding the click listener to each element of a list without repeats. *)
Lemma wire_each (buttons : list nat) (p : Page) :
  NoDup buttons →
  page_document
    (foldl (λ p button, addEventListener button "click" (CopyClick button) p)
       p buttons) = page_document p ∧
  ∀ (n : nat) (type : string),
    listeners_of
      (foldl (λ p button, addEventListener button "click" (CopyClick button) p)
         p buttons) n type =
      listeners_of p n type ++
      if bool_decide (n ∈ buttons ∧ type = "click") then [CopyClick n] else [].
Proof.
  intros Hnd. revert p.
  induction Hnd as [|button rest Hnotin Hnd IH]; intros p.
  { split; [reflexivity|]. intros n type.
    case_bool_decide as Hin; [|by rewrite app_nil_r].
    destruct Hin as [Hin _]. by apply elem_of_nil in Hin. }
  cbn [foldl].
  destruct (IH (addEventListener button "click" (CopyClick button) p))
    as [Hdoc Hls].
  split; [by rewrite Hdoc|].
  intros n type. rewrite Hls, listeners_of_addEventListener.
  case_bool_decide as Heq.
  - inversion Heq; subst n type.
    rewrite bool_decide_eq_false_2 by (by intros [? _]).
    rewrite bool_decide_eq_true_2 by (split; [by left|done]).
    by rewrite app_nil_r.
  - f_equal.
    assert (bool_decide (n ∈ rest ∧ type = "click") =
            bool_decide (n ∈ button :: rest ∧ type = "click")) as ->;
      [|reflexivity].
    apply bool_decide_ext. split.
    + intros [Hin ->]. split; [by right|done].
    + intros [Hin ->]. split; [|done].
      apply elem_of_cons in Hin as [->|Hin]; [done|exact Hin].
Qed.

Lemma NoDup_query (f : nat → bool) (l : list nat) :
  NoDup l → NoDup (List.filter f l).
Proof.
  induction 1 as [|x l Hx Hnd IH]; simpl; [constructor|].
  destruct (f x); [|exact IH].
  constructor; [|exact IH].
  rewrite list_elem_of_In, List.filter_In, <- list_elem_of_In. tauto.
Qed.

Lemma elem_of_querySelectorAll_class (cls : string) (p : Page) (n : nat) :
  n ∈ querySelectorAll_class cls p ↔
  n ∈ elements (page_document p) ∧ has_class p cls n = true.
Proof.
  unfold querySelectorAll_class.
  rewrite !list_elem_of_In, List.filter_In. reflexivity.
Qed.

Lemma is_trigger_query (p : Page) (n : nat) :
  is_trigger p n = true ↔ n ∈ querySelectorAll_class "js-copy-btn" p.
Proof.
  rewrite elem_of_querySelectorAll_class. unfold is_trigger.
  by rewrite andb_true_iff, bool_decide_eq_true.
Qed.

Lemma on_DOMContentLoaded_listeners (p : Page) (n : nat) (type : string) :
  NoDup (elements (page_document p)) →
  listeners_of (on_DOMContentLoaded p) n type =
    listeners_of p n type ++
    if is_trigger p n && String.eqb type "click" then [CopyClick n] else [].
Proof.
  intros Hnd. unfold on_DOMContentLoaded.
  destruct (wire_each (querySelectorAll_class "js-copy-btn" p) p) as [_ Hls].
  { unfold querySelectorAll_class. by apply NoDup_query. }
  rewrite Hls. f_equal.
  assert (bool_decide (n ∈ querySelectorAll_class "js-copy-btn" p ∧
                       type = "click") =
          is_trigger p n && String.eqb type "click") as ->; [|reflexivity].
  apply Bool.eq_true_iff_eq.
  rewrite bool_decide_eq_true, andb_true_iff, is_trigger_query.
  by rewrite String.eqb_eq.
Qed.

Lemma run_single_listener (host : Host) (l : Listener) (d : Document) :
  run_listeners host [l] d = run_listener host l d.
Proof.
  simpl. unfold bind, ret.
  destruct (run_listener host l d) as [[[[]|e] d1] t1]; [|reflexivity].
  by rewrite app_nil_r.
Qed.

(** The click listeners met on the way of an event after the wiring, when
    there were none before: one for each trigger on the way. *)
Lemma wired_path_listeners (p : Page) (way : list nat) :
  NoDup (elements (page_document p)) →
  (∀ m : nat, m ∈ way → listeners_of p m "click" = []) →
  List.flat_map (λ m, listeners_of (on_DOMContentLoaded p) m "click") way =
    List.map CopyClick (List.filter (is_trigger p) way).
Proof.
  intros Hnd. induction way as [|m way IH]; intros Hnone; [reflexivity|].
  simpl. rewrite (on_DOMContentLoaded_listeners p m "click" Hnd).
  rewrite (Hnone m) by by left. rewrite andb_true_r. simpl.
  rewrite IH by (intros k Hk; apply Hnone; by right).
  by destruct (is_trigger p m).
Qed.

(** X9: the callback of [DOMContentLoaded] attaches exactly one click
    listener, the closure over that element, to each element of the
    document, at any depth, that has the class [js-copy-btn], after the
    listeners the element already had; no other element and no other event
    type gets a listener, and the document is not touched.  With no such
    element nothing is attached. *)
Theorem wiring_one_listener_per_trigger
    (p : Page) (n : nat) (type : string) :
  NoDup (elements (page_document p)) →
  page_document (on_DOMContentLoaded p) = page_document p ∧
  listeners_of (on_DOMContentLoaded p) n type =
    listeners_of p n type ++
    (if is_trigger p n && String.eqb type "click" then [CopyClick n] else []) ∧
  (querySelectorAll_class "js-copy-btn" p = [] →
   on_DOMContentLoaded p = p).
Proof.
  intros Hnd. split; [|split].
  - unfold on_DOMContentLoaded.
    apply (wire_each (querySelectorAll_class "js-copy-btn" p) p).
    unfold querySelectorAll_class. by apply NoDup_query.
  - by apply on_DOMContentLoaded_listeners.
  - intros Hnone. unfold on_DOMContentLoaded. by rewrite Hnone.
Qed.

Lemma nested_doc_NoDup : NoDup (elements nested_doc).
Proof.
  unfold elements. simpl.
  repeat (apply NoDup_cons_2;
          [intros Hin;
           repeat (apply elem_of_cons in Hin as [Hin|Hin]; [discriminate|]);
           by apply elem_of_nil in Hin|]).
  apply NoDup_nil_2.
Defined.

Lemma wiring_one_listener_per_trigger_witness :
  listeners_of (on_DOMContentLoaded nested_page) 0 "click" =
    listeners_of nested_page 0 "click" ++
    (if is_trigger nested_page 0 && String.eqb "click" "click"
     then [CopyClick 0] else []).
Proof.
  apply (proj1 (proj2 (wiring_one_listener_per_trigger nested_page 0 "click"
                         nested_doc_NoDup))).
Defined.

(** X10: after the wiring of a page, a click bubbles from its target
    through the ancestors the target has at the click.  When no element on
    that way had a click listener before the wiring and exactly one of them
    was a trigger at [DOMContentLoaded] (the target itself, or the trigger
    the target is inside), the click runs the copy listener once, on that
    trigger as it is at the time of the click; when none of them was a
    trigger, the click does nothing. *)
Theorem click_after_wiring
    (host : Host) (p : Page) (target : nat) (d : Document) :
  NoDup (elements (page_document p)) →
  (∀ m : nat, m ∈ event_path d target → listeners_of p m "click" = []) →
  (∀ (button : nat) (el : Element),
     List.filter (is_trigger p) (event_path d target) = [button] →
     nodes d !! button = Some el →
     dispatch_click host (on_DOMContentLoaded p) target d =
       click_handler host el d) ∧
  (List.filter (is_trigger p) (event_path d target) = [] →
   dispatch_click host (on_DOMContentLoaded p) target d = (Normal tt, d, [])).
Proof.
  intros Hnd Hnone. unfold dispatch_click.
  rewrite (wired_path_listeners p (event_path d target) Hnd Hnone).
  split.
  - intros button el Hone Hel. rewrite Hone. simpl List.map.
    rewrite run_single_listener. simpl. by rewrite Hel.
  - intros Hno. by rewrite Hno.
Qed.

Lemma no_listeners_yet (m : nat) :
  listeners_of nested_page m "click" = [].
Proof. unfold listeners_of. simpl. by rewrite lookup_empty. Defined.

Lemma click_after_wiring_witness :
  dispatch_click legacy_page (on_DOMContentLoaded nested_page) 3 nested_doc =
    click_handler legacy_page literal_button nested_doc ∧
  dispatch_click legacy_page (on_DOMContentLoaded nested_page) 1 nested_doc =
    (Normal tt, nested_doc, []).
Proof.
  split.
  - apply (proj1 (click_after_wiring legacy_page nested_page 3 nested_doc
                    nested_doc_NoDup (λ m _, no_listeners_yet m)) 0).
    + reflexivity.
    + reflexivity.
  - apply (proj2 (click_after_wiring legacy_page nested_page 1 nested_doc
                    nested_doc_NoDup (λ m _, no_listeners_yet m))).
    reflexivity.
Defined.
